(** * network_rag: the package initialiser

    The repository ships one source file, [src/network_rag/__init__.py]:
    a module docstring, the assignment [__version__ = "0.0.1"] and the
    assignment [__all__ = ["__version__"]].

    This development embeds that module as a program of a small
    Python fragment (module top-level statements), gives the fragment an
    executable semantics over an explicit state (the module namespace and
    the world outside the module), and proves the properties of loading
    the module. *)

From Stdlib Require Import String Ascii List Bool Arith Lia.
From stdpp Require Import base strings gmap list relations.

Set Warnings "-register-all".
Local Open Scope string_scope.

(** ** Syntax of the fragment *)

Module Py.

(** Built-in callables with an effect on the world outside the module. *)
Inductive builtin : Type :=
| BPrint                                  (* print(x): writes to stdout   *)
| BInput                                  (* input(): reads from stdin    *)
| BGetenv.                                (* os.getenv(k): reads environ  *)

Inductive expr : Type :=
| EStr (s : string)                       (* "..."                        *)
| EList (items : list expr)               (* [e1, ..., en]                *)
| EName (x : string)                      (* x                            *)
| ECall (f : builtin) (args : list expr). (* f(e1, ..., en)               *)

Inductive stmt : Type :=
| SExpr (e : expr)                        (* e                            *)
| SAssign (x : string) (e : expr)         (* x = e                        *)
| SDel (x : string)                       (* del x                        *)
| SIf (c : expr) (thn els : list stmt)    (* if c: thn else: els          *)
| SWhile (c : expr) (body : list stmt)    (* while c: body                *)
| SFunctionDef (f : string) (body : list stmt)    (* def f(): body        *)
| SClassDef (c : string) (bases : list string)    (* class c(bases): pass *)
| SImport (m : string)                    (* import m                     *)
| SRaise (e : expr).                      (* raise e                      *)

(** ** Values, the world, and the state *)

Inductive value : Type :=
| VNone
| VStr (s : string)
| VList (vs : list value)
| VFunc (body : list stmt)
| VClass (c : string) (bases : list string)
| VModule (m : string).

(** What lives outside the module being loaded. *)
Record world : Type := World {
  stdout : list string;                   (* what has been printed        *)
  stdin : list string;                    (* lines still to be read       *)
  environ : gmap string string;           (* process environment          *)
  installed : list string;                (* importable modules           *)
  sys_modules : list string               (* modules imported so far      *)
}.

Record state : Type := State {
  globals : gmap string value;            (* the module's namespace       *)
  outside : world
}.

Inductive exn : Type :=
| NameError (x : string)
| TypeError
| EOFError
| AttributeError (x : string)
| ModuleNotFoundError (m : string)
| Raised (v : value).

Inductive outcome (A : Type) : Type :=
| Done (a : A)
| Raise (e : exn)
| OutOfFuel.
Arguments Done {A} a.
Arguments Raise {A} e.
Arguments OutOfFuel {A}.

#[export] Instance outcome_ret : MRet outcome := fun A a => Done a.

#[export] Instance outcome_bind : MBind outcome := fun A B k o =>
  match o with
  | Done a => k a
  | Raise e => Raise e
  | OutOfFuel => OutOfFuel
  end.

Definition bind_name (x : string) (v : value) (st : state) : state :=
  State (<[x := v]> (globals st)) (outside st).

Definition unbind_name (x : string) (st : state) : state :=
  State (delete x (globals st)) (outside st).

Definition set_outside (w : world) (st : state) : state :=
  State (globals st) w.

(** Python truth value of the values of the fragment. *)
Definition truthy (v : value) : bool :=
  match v with
  | VNone => false
  | VStr s => negb (String.eqb s "")
  | VList vs => negb (Nat.eqb (length vs) 0)
  | _ => true
  end.

(** ** Semantics *)

Definition call_builtin (f : builtin) (args : list value) (st : state)
  : outcome (value * state) :=
  let w := outside st in
  match f, args with
  | BPrint, [VStr s] =>
      Done (VNone, set_outside
        (World (stdout w ++ [s]) (stdin w) (environ w) (installed w) (sys_modules w)) st)
  | BInput, [] =>
      match stdin w with
      | [] => Raise EOFError
      | l :: ls =>
          Done (VStr l, set_outside
            (World (stdout w) ls (environ w) (installed w) (sys_modules w)) st)
      end
  | BGetenv, [VStr k] =>
      Done (match environ w !! k with Some s => VStr s | None => VNone end, st)
  | _, _ => Raise TypeError
  end.

(** Left-to-right evaluation of a sequence of expressions. *)
Definition eval_seq (ev : expr -> state -> outcome (value * state))
  : list expr -> state -> outcome (list value * state) :=
  fix go (es : list expr) (st : state) : outcome (list value * state) :=
    match es with
    | [] => Done ([], st)
    | e :: es' =>
        '(v, st1) ← ev e st;
        '(vs, st2) ← go es' st1;
        Done (v :: vs, st2)
    end.

Fixpoint eval (e : expr) (st : state) {struct e} : outcome (value * state) :=
  match e with
  | EStr s => Done (VStr s, st)
  | EList items =>
      '(vs, st1) ← eval_seq eval items st;
      Done (VList vs, st1)
  | EName x =>
      match globals st !! x with
      | Some v => Done (v, st)
      | None => Raise (NameError x)
      end
  | ECall f args =>
      '(vs, st1) ← eval_seq eval args st;
      call_builtin f vs st1
  end.

(** Names of the exception classes Python provides without any import. *)
Definition builtin_class (c : string) : bool :=
  String.eqb c "BaseException" || String.eqb c "Exception"
  || String.eqb c "ValueError" || String.eqb c "object".

Definition is_class (st : state) (c : string) : bool :=
  builtin_class c ||
  match globals st !! c with Some (VClass _ _) => true | _ => false end.

Definition import_module (m : string) (st : state) : outcome state :=
  let w := outside st in
  if existsb (String.eqb m) (sys_modules w) then
    Done (bind_name m (VModule m) st)
  else if existsb (String.eqb m) (installed w) then
    Done (bind_name m (VModule m) (set_outside
      (World (stdout w) (stdin w) (environ w) (installed w) (sys_modules w ++ [m])) st))
  else Raise (ModuleNotFoundError m).

(** One unit of fuel is spent per executed statement; the statements
    still to run form the continuation [body]. *)
Fixpoint exec (fuel : nat) (body : list stmt) (st : state) {struct fuel}
  : outcome state :=
  match body with
  | [] => Done st
  | s :: rest =>
      match fuel with
      | 0 => OutOfFuel
      | S n =>
          match s with
          | SExpr e =>
              '(_, st1) ← eval e st; exec n rest st1
          | SAssign x e =>
              '(v, st1) ← eval e st; exec n rest (bind_name x v st1)
          | SDel x =>
              match globals st !! x with
              | Some _ => exec n rest (unbind_name x st)
              | None => Raise (NameError x)
              end
          | SIf c thn els =>
              '(v, st1) ← eval c st;
              exec n ((if truthy v then thn else els) ++ rest) st1
          | SWhile c b =>
              '(v, st1) ← eval c st;
              if truthy v then exec n (b ++ SWhile c b :: rest) st1
              else exec n rest st1
          | SFunctionDef f b =>
              exec n rest (bind_name f (VFunc b) st)
          | SClassDef c bases =>
              match List.find (fun b => negb (is_class st b)) bases with
              | Some b => Raise (NameError b)
              | None => exec n rest (bind_name c (VClass c bases) st)
              end
          | SImport m =>
              st1 ← import_module m st; exec n rest st1
          | SRaise e =>
              '(v, _) ← eval e st; Raise (Raised v)
          end
      end
  end.

(** A module whose body starts with a string literal has that string as
    its docstring: the code object of the module stores it under
    [__doc__] before running the rest of the body. *)
Definition compile_module (body : list stmt) : list stmt :=
  match body with
  | SExpr (EStr d) :: rest => SAssign "__doc__" (EStr d) :: rest
  | _ => body
  end.

(** Running the statements of a module body, and only them; what the
    interpreter does around the body is in [exec_code] and
    [import_package] below. *)
Definition exec_module (fuel : nat) (body : list stmt) (st : state) : outcome state :=
  exec fuel (compile_module body) st.

(** ** Static shape of a module body *)

Fixpoint literal (e : expr) : bool :=
  match e with
  | EStr _ => true
  | EList items => forallb literal items
  | EName _ | ECall _ _ => false
  end.

(** Names an expression reads from the namespace. *)
Fixpoint reads (e : expr) : list string :=
  match e with
  | EStr _ => []
  | EList items => flat_map reads items
  | EName x => [x]
  | ECall _ args => flat_map reads args
  end.

(** A statement that only stores (or discards) a literal. *)
Definition constant_definition (s : stmt) : bool :=
  match s with
  | SExpr e | SAssign _ e => literal e
  | _ => false
  end.

Definition is_assignment (s : stmt) : bool :=
  match s with SAssign _ _ => true | _ => false end.

Definition control_flow (s : stmt) : bool :=
  match s with
  | SIf _ _ _ | SWhile _ _ | SRaise _ => true
  | _ => false
  end.

(** Names a statement may bind, read or delete, nested blocks included. *)
Fixpoint bound_names (s : stmt) : list string :=
  match s with
  | SAssign x _ => [x]
  | SIf _ thn els => flat_map bound_names thn ++ flat_map bound_names els
  | SWhile _ b => flat_map bound_names b
  | SFunctionDef f _ => [f]
  | SClassDef c _ => [c]
  | SImport m => [m]
  | SExpr _ | SDel _ | SRaise _ => []
  end.

Fixpoint read_names (s : stmt) : list string :=
  match s with
  | SExpr e | SAssign _ e | SRaise e => reads e
  | SDel x => [x]
  | SIf c thn els => reads c ++ flat_map read_names thn ++ flat_map read_names els
  | SWhile c b => reads c ++ flat_map read_names b
  | SFunctionDef _ b => flat_map read_names b
  | SClassDef _ bases => bases
  | SImport _ => []
  end.

Fixpoint deleted_names (s : stmt) : list string :=
  match s with
  | SDel x => [x]
  | SIf _ thn els => flat_map deleted_names thn ++ flat_map deleted_names els
  | SWhile _ b => flat_map deleted_names b
  | SFunctionDef _ b => flat_map deleted_names b
  | _ => []
  end.

(** Functions, classes (an error taxonomy is a set of exception classes)
    and imported modules that a body declares at its top level. *)
Definition declared_functions (body : list stmt) : list string :=
  flat_map (fun s => match s with SFunctionDef f _ => [f] | _ => [] end) body.

Definition declared_classes (body : list stmt) : list string :=
  flat_map (fun s => match s with SClassDef c _ => [c] | _ => [] end) body.

Definition imported_modules (body : list stmt) : list string :=
  flat_map (fun s => match s with SImport m => [m] | _ => [] end) body.

(** ** Observing a module *)

Definition callable (v : value) : bool :=
  match v with VFunc _ | VClass _ _ => true | _ => false end.

(** [m.x] on the outcome of a load. *)
Definition attr (x : string) (o : outcome state) : option value :=
  match o with
  | Done st => globals st !! x
  | _ => None
  end.

Definition raises {A} (o : outcome A) : bool :=
  match o with Raise _ => true | _ => false end.

Definition private_name (x : string) : bool :=
  match x with
  | String "_"%char _ => true
  | _ => false
  end.

Fixpoint export_names (vs : list value) : outcome (list string) :=
  match vs with
  | [] => Done []
  | VStr x :: vs' => xs ← export_names vs'; Done (x :: xs)
  | _ :: _ => Raise TypeError
  end.

Fixpoint import_names (ns : gmap string value) (xs : list string)
  : outcome (gmap string value) :=
  match xs with
  | [] => Done ∅
  | x :: xs' =>
      match ns !! x with
      | Some v => m ← import_names ns xs'; Done (<[x := v]> m)
      | None => Raise (AttributeError x)
      end
  end.

(** [from m import *]: the bindings the importer receives. With
    [__all__] they are the names it lists; without it, every name of the
    namespace that does not begin with an underscore. *)
Definition star_import (st : state) : outcome (gmap string value) :=
  match globals st !! "__all__" with
  | Some (VList vs) => xs ← export_names vs; import_names (globals st) xs
  | Some (VStr s) =>
      import_names (globals st)
        (map (fun c => String c EmptyString) (list_ascii_of_string s))
  | Some _ => Raise TypeError
  | None =>
      Done (filter (fun kv : string * value => private_name kv.1 = false)
                   (globals st))
  end.

(** What a client of the module can observe: the version attribute and
    the public export surface. *)
Definition observe (o : outcome state)
  : option value * outcome (gmap string value) :=
  (attr "__version__" o, st ← o; star_import st).

(** [st'] differs from [st] at most in the module names [xs]; the world
    outside the module is the same. *)
Definition changes_only (xs : list string) (st st' : state) : Prop :=
  outside st' = outside st ∧
  ∀ x, x ∉ xs → globals st' !! x = globals st !! x.

(** The life of a module after its load: a step invokes a callable that
    the module body bound; [invoke] is any semantics of such a call. *)
Section Lifetime.
  Variable invoke : value → state → state → Prop.
  Variable body : list stmt.

Inductive module_step (st st' : state) : Prop :=
| step_invoke (f : string) (v : value) :
    f ∈ flat_map bound_names (compile_module body) →
    globals st !! f = Some v →
    callable v = true →
    invoke v st st' →
    module_step st st'.

End Lifetime.

(** The namespace the import machinery hands to a module body. *)
Definition fresh_module (name : string) (w : world) : state :=
  State (<["__name__" := VStr name]>
          (<["__doc__" := VNone]>
            (<["__package__" := VStr name]> ∅))) w.

Definition quiet_world : world := World [] [] ∅ [] [].

End Py.

Import Py.

(** ** The source file [src/network_rag/__init__.py] *)

(** Lines 1-10: the module docstring (UTF-8 bytes, line feeds kept). *)
Definition docstring : string :=
"
Network RAG - Network-based Retrieval-Augmented Generation

Precise retrieval with broad context.

Open-source Python framework that combines vector search with network relationships
for precise retrieval with broad context. Define your graph explicitly in code,
deploy anywhere with your current database and tech stack, and query with NXQL—
a composable query language built for hybrid retrieval.
".

(** Line 12: [__version__ = "0.0.1"]. *)
Definition __version__ : string := "0.0.1".

(** Line 15: [__all__ = ["__version__"]]. *)
Definition __all__ : list string := ["__version__"].

(** The module body, statement by statement. *)
Definition network_rag_init : list stmt :=
  [ SExpr (EStr docstring);
    SAssign "__version__" (EStr __version__);
    SAssign "__all__" (EList (map EStr __all__)) ].

(** The package: its only module is the package root. *)
Definition package : list (string * list stmt) :=
  [ ("network_rag", network_rag_init) ].

(** The state after the three statements of the module have run. *)
Definition loaded (st : state) : state :=
  bind_name "__all__" (VList (map VStr __all__))
    (bind_name "__version__" (VStr __version__)
      (bind_name "__doc__" (VStr docstring) st)).

(** ** Semantic versions *)

Definition is_digit (c : ascii) : bool :=
  (48 <=? nat_of_ascii c)%nat && (nat_of_ascii c <=? 57)%nat.

(** [split_on sep s] is Python's [s.split(sep)] for a one-character
    separator. *)
Fixpoint split_on (sep : ascii) (s : string) : list string :=
  match s with
  | EmptyString => [EmptyString]
  | String c s' =>
      if Ascii.eqb c sep then EmptyString :: split_on sep s'
      else match split_on sep s' with
           | [] => [String c EmptyString]
           | w :: ws => String c w :: ws
           end
  end.

(** A numeric identifier: digits only, not empty, no leading zero. *)
Definition numeric_identifier (s : string) : bool :=
  match s with
  | EmptyString => false
  | String "0"%char EmptyString => true
  | String "0"%char _ => false
  | _ => forallb is_digit (list_ascii_of_string s)
  end.

(** MAJOR.MINOR.PATCH *)
Definition is_semver (s : string) : bool :=
  match split_on "."%char s with
  | [major; minor; patch] =>
      numeric_identifier major && numeric_identifier minor
      && numeric_identifier patch
  | _ => false
  end.

(** Following the spec's words: a single module declaring a version
    constant, in one line. *)
Definition one_line_module : list stmt :=
  [ SAssign "__version__" (EStr "0.0.1") ].

(** The version constant together with the export list. *)
Definition two_line_module : list stmt :=
  [ SAssign "__version__" (EStr "0.0.1");
    SAssign "__all__" (EList [EStr "__version__"]) ].

(** The state in which the import machinery starts the module body. *)
Definition initial_state : state := fresh_module "network_rag" quiet_world.

(** A second environment: something was printed, input is pending, the
    environment and the namespace are not empty. *)
Definition busy_state : state :=
  State (<["__version__" := VStr "9.9.9"]> (<["__name__" := VStr "other"]> ∅))
        (World ["hello"] ["line"] (<["NETWORK_RAG_VERSION" := "7.7.7"]> ∅)
               ["os"] ["sys"]).

(** A call semantics that would overwrite the version, if only the
    module had a callable to invoke. *)
Definition clobber (v : value) (st st' : state) : Prop :=
  st' = bind_name "__version__" VNone st.

(** ** The interpreter around the module body *)

(** The interpreter's built-in namespace, as the value it stores under
    [__builtins__]; an opaque stand-in, nothing looks inside it. *)
Definition builtins_namespace : value := VModule "builtins".

(** [exec(code, namespace)] first stores [__builtins__] in a namespace
    that does not have it. *)
Definition with_builtins (st : state) : state :=
  match globals st !! "__builtins__" with
  | Some _ => st
  | None => bind_name "__builtins__" builtins_namespace st
  end.

(** The load proper, the loader's [exec(code, module.__dict__)]: it is
    what a first import and a reload both run. *)
Definition exec_code (fuel : nat) (body : list stmt) (st : state)
  : outcome state :=
  exec_module fuel body (with_builtins st).

(** [sys.modules[name] = module] *)
Definition register_module (name : string) (w : world) : world :=
  World (stdout w) (stdin w) (environ w) (installed w) (sys_modules w ++ [name]).

(** [import name], with the module namespace in [globals st]: a module
    that [sys.modules] already holds is not run again; a new one, whose
    namespace the machinery has prepared, is registered and then loaded.
    (An exception of the body would propagate; this module raises none.) *)
Definition import_package (fuel : nat) (name : string) (body : list stmt)
    (st : state) : outcome state :=
  if existsb (String.eqb name) (sys_modules (outside st)) then Done st
  else exec_code fuel body (set_outside (register_module name (outside st)) st).

(** Three other module bodies, to exercise the semantics: one prints, one
    reads a name that is not bound, one loops for ever. *)
Definition noisy_module : list stmt :=
  [ SExpr (ECall BPrint [EStr "loading"]) ].

Definition broken_module : list stmt :=
  [ SAssign "__all__" (EList [EName "__version__"]) ].

Definition spinning_module : list stmt :=
  [ SWhile (EStr "forever") [] ].

(** ** Literals and constant definitions in general *)

Section ExprInduction.
  Variable P : expr → Prop.
  Hypothesis HStr : ∀ s, P (EStr s).
  Hypothesis HList : ∀ items, Forall P items → P (EList items).
  Hypothesis HName : ∀ x, P (EName x).
  Hypothesis HCall : ∀ f args, Forall P args → P (ECall f args).

Fixpoint expr_nested_ind (e : expr) : P e :=
  let all :=
    fix all (es : list expr) : Forall P es :=
      match es with
      | [] => List.Forall_nil P
      | e' :: es' => List.Forall_cons P e' es' (expr_nested_ind e') (all es')
      end in
  match e with
  | EStr s => HStr s
  | EList items => HList items (all items)
  | EName x => HName x
  | ECall f args => HCall f args (all args)
  end.

End ExprInduction.

(** A literal evaluates to the same value in every state, and leaves the
    state as it was. *)
Lemma eval_literal (e : expr) :
  literal e = true → ∃ v, ∀ st, eval e st = Done (v, st).
Proof.
  induction e as [s | items IH | x | f args _] using expr_nested_ind;
    cbn; intros Hlit; try discriminate.
  - by exists (VStr s).
  - assert (∃ vs, ∀ st, eval_seq eval items st = Done (vs, st)) as [vs Hvs].
    { induction IH as [| e es He _ IHes]; cbn in *.
      - by exists [].
      - apply andb_prop in Hlit as [Hl1 Hl2].
        destruct (He Hl1) as [v Hv], (IHes Hl2) as [vs Hvs].
        exists (v :: vs). intros st. by rewrite Hv; cbn; rewrite Hvs. }
    exists (VList vs). intros st. by rewrite Hvs.
Qed.

(** An empty continuation is done whatever fuel is left. *)
Lemma exec_nil (fuel : nat) (st : state) : exec fuel [] st = Done st.
Proof. by destruct fuel. Qed.

Lemma changes_only_refl (xs : list string) (st : state) :
  changes_only xs st st.
Proof. by split. Qed.

Lemma changes_only_bind (x : string) (v : value) (xs : list string)
    (st st' : state) :
  changes_only xs (bind_name x v st) st' → changes_only (x :: xs) st st'.
Proof.
  intros [Hw Hg]. split; [done |].
  intros y Hy. apply not_elem_of_cons in Hy as [Hne Hy].
  rewrite (Hg y Hy). cbn. by apply lookup_insert_ne.
Qed.

(** A body of constant definitions runs to completion with one unit of
    fuel per statement, raises nothing, and touches only the names it
    assigns. *)
Lemma exec_constant_definitions (body : list stmt) :
  forallb constant_definition body = true →
  ∀ k st, ∃ st',
    exec (length body + k) body st = Done st'
    ∧ changes_only (flat_map bound_names body) st st'.
Proof.
  induction body as [| s rest IH]; cbn; intros Hc k st.
  - exists st. split; [apply exec_nil | apply changes_only_refl].
  - apply andb_prop in Hc as [Hs Hrest].
    destruct s as [e | x e | | | | | | |]; try discriminate; cbn in Hs;
      destruct (eval_literal e Hs) as [v Hv]; rewrite Hv; cbn.
    + apply (IH Hrest).
    + destruct (IH Hrest k (bind_name x v st)) as (st' & Hex & Hch).
      exists st'. split; [done | by apply (changes_only_bind x v)].
Qed.

(** ** The semantics at work *)

Example noisy_module_prints :
  (st ← exec_module 1 noisy_module initial_state; Done (stdout (outside st)))
  = Done ["loading"].
Proof. reflexivity. Qed.

Example broken_module_raises :
  exec_module 1 broken_module initial_state = Raise (NameError "__version__").
Proof. reflexivity. Qed.

Example spinning_module_never_returns (fuel : nat) :
  exec_module fuel spinning_module initial_state = OutOfFuel.
Proof.
  unfold exec_module, spinning_module. cbn [compile_module].
  induction fuel as [| n IH]; [reflexivity | exact IH].
Qed.

(** ** Loading [network_rag] *)

Lemma exec_network_rag_init (k : nat) (st : state) :
  exec_module (3 + k) network_rag_init st = Done (loaded st).
Proof. cbn. apply exec_nil. Qed.

Lemma exec_network_rag_init_fuel (fuel : nat) (st : state) :
  exec_module fuel network_rag_init st =
  if (fuel <? 3)%nat then OutOfFuel else Done (loaded st).
Proof. destruct fuel as [| [| [| k]]]; try reflexivity. apply (exec_network_rag_init k). Qed.

Lemma exec_network_rag_init_done (fuel : nat) (st st' : state) :
  exec_module fuel network_rag_init st = Done st' → st' = loaded st.
Proof.
  rewrite exec_network_rag_init_fuel. destruct (fuel <? 3)%nat; congruence.
Qed.

Lemma loaded_version (st : state) :
  globals (loaded st) !! "__version__" = Some (VStr "0.0.1").
Proof. cbn. by simplify_map_eq. Qed.

Lemma loaded_all (st : state) :
  globals (loaded st) !! "__all__" = Some (VList [VStr "__version__"]).
Proof. cbn. by simplify_map_eq. Qed.

Lemma loaded_doc (st : state) :
  globals (loaded st) !! "__doc__" = Some (VStr docstring).
Proof. cbn. by simplify_map_eq. Qed.

Lemma loaded_star_import (st : state) :
  star_import (loaded st) = Done {[ "__version__" := VStr "0.0.1" ]}.
Proof.
  unfold star_import. rewrite loaded_all. cbn [export_names map mbind outcome_bind import_names].
  by rewrite loaded_version.
Qed.


(** ** The version identifier *)

(** C8: after a load, [__version__] is exactly the string ["0.0.1"]. *)
Theorem version_value (k : nat) (st : state) :
  attr "__version__" (exec_module (3 + k) network_rag_init st)
  = Some (VStr "0.0.1").
Proof. rewrite exec_network_rag_init. apply loaded_version. Qed.

(** C1: after a load, [__version__] is a string, it is not empty, and it
    has the form MAJOR.MINOR.PATCH of a semantic version. *)
Theorem version_is_semver (k : nat) (st : state) :
  ∃ v : string,
    attr "__version__" (exec_module (3 + k) network_rag_init st) = Some (VStr v)
    ∧ (0 < String.length v)%nat
    ∧ is_semver v = true.
Proof.
  exists __version__. rewrite exec_network_rag_init. cbn [attr].
  split; [apply loaded_version |]. split; [cbn; lia | reflexivity].
Qed.

(** ** The export list *)

(** C2: after a load, [__all__] is the one-element list holding the name
    [__version__]; every name it lists is bound in the module; and a star
    import receives the version constant and nothing else. *)
Theorem all_exports_exactly_version (k : nat) (st : state) :
  attr "__all__" (exec_module (3 + k) network_rag_init st)
  = Some (VList [VStr "__version__"])
  ∧ __all__ = ["__version__"]
  ∧ Forall (λ x, is_Some (attr x (exec_module (3 + k) network_rag_init st)))
           __all__
  ∧ (st' ← exec_module (3 + k) network_rag_init st; star_import st')
    = Done {[ "__version__" := VStr "0.0.1" ]}.
Proof.
  rewrite exec_network_rag_init. cbn [attr mbind outcome_bind].
  split; [apply loaded_all |]. split; [reflexivity |]. split.
  - repeat constructor. rewrite loaded_version. by eexists.
  - apply loaded_star_import.
Qed.

(** ** Effects of a load *)

(** Run from the namespace the import machinery prepared, where
    [__doc__] is [None], the module body rebinds [__doc__] to the
    docstring: it does not change [__version__] and [__all__] only. *)
Lemma load_rebinds_doc :
  ¬ (∀ fuel st st',
       exec_module fuel network_rag_init st = Done st' →
       changes_only ["__version__"; "__all__"] st st').
Proof.
  intros H.
  destruct (H 3 initial_state (loaded initial_state) eq_refl) as [_ Hg].
  assert (Hdoc : "__doc__" ∉ ["__version__"; "__all__"]).
  { rewrite !not_elem_of_cons. repeat split; [done | done | apply not_elem_of_nil]. }
  apply Hg in Hdoc. rewrite loaded_doc in Hdoc. vm_compute in Hdoc. discriminate.
Qed.

(** The three statements of the body change [__doc__], [__version__]
    and [__all__] and nothing else. *)
Lemma body_frame (st : state) :
  changes_only ["__doc__"; "__version__"; "__all__"] st (loaded st).
Proof.
  destruct (exec_constant_definitions (compile_module network_rag_init) eq_refl 0 st)
    as (st' & Hex & Hch).
  change (exec_module (3 + 0) network_rag_init st = Done st') in Hex.
  rewrite exec_network_rag_init in Hex. by injection Hex as <-.
Qed.

Lemma with_builtins_outside (st : state) :
  outside (with_builtins st) = outside st.
Proof. unfold with_builtins. by destruct (globals st !! "__builtins__"). Qed.

Lemma with_builtins_other (st : state) (x : string) :
  x ≠ "__builtins__" → globals (with_builtins st) !! x = globals st !! x.
Proof.
  intros Hne. unfold with_builtins.
  destruct (globals st !! "__builtins__"); [done |].
  cbn. by apply lookup_insert_ne.
Qed.

Lemma with_builtins_bound (st : state) :
  is_Some (globals (with_builtins st) !! "__builtins__").
Proof.
  unfold with_builtins.
  destruct (globals st !! "__builtins__") as [v |] eqn:Hb.
  - rewrite Hb. by exists v.
  - cbn. rewrite lookup_insert_eq. by eexists.
Qed.

Lemma with_builtins_kept (st : state) :
  is_Some (globals st !! "__builtins__") → with_builtins st = st.
Proof. intros [v Hv]. unfold with_builtins. by rewrite Hv. Qed.

Lemma registered_iff (name : string) (names : list string) :
  existsb (String.eqb name) names = true ↔ name ∈ names.
Proof.
  rewrite existsb_exists, list_elem_of_In. split.
  - intros (y & Hin & Heq). by apply String.eqb_eq in Heq as ->.
  - intros Hin. exists name. split; [done | apply String.eqb_refl].
Qed.

(** What a load does to a namespace and to the world, whatever they were
    before. *)
Lemma exec_code_frame (fuel : nat) (st st' : state) :
  exec_code fuel network_rag_init st = Done st' →
  changes_only ["__builtins__"; "__doc__"; "__version__"; "__all__"] st st'
  ∧ is_Some (globals st' !! "__builtins__")
  ∧ (is_Some (globals st !! "__builtins__") →
     globals st' !! "__builtins__" = globals st !! "__builtins__")
  ∧ globals st' !! "__doc__" = Some (VStr docstring)
  ∧ globals st' !! "__version__" = Some (VStr "0.0.1")
  ∧ globals st' !! "__all__" = Some (VList [VStr "__version__"]).
Proof.
  unfold exec_code. intros Hdone.
  apply exec_network_rag_init_done in Hdone as ->.
  destruct (body_frame (with_builtins st)) as [Hw Hg].
  assert (Hb : "__builtins__" ∉ ["__doc__"; "__version__"; "__all__"]).
  { rewrite !not_elem_of_cons. repeat split; [done | done | done | apply not_elem_of_nil]. }
  split; [split |].
  - by rewrite Hw, with_builtins_outside.
  - intros x Hx. apply not_elem_of_cons in Hx as [Hne Hx].
    rewrite (Hg x Hx). by apply with_builtins_other.
  - split; [rewrite (Hg _ Hb); apply with_builtins_bound |].
    split; [intros Hsome; by rewrite (Hg _ Hb), (with_builtins_kept st Hsome) |].
    split; [apply loaded_doc |]. split; [apply loaded_version | apply loaded_all].
Qed.

(** C3, the claim as stated fails: a first import from the namespace the
    import machinery prepared changes more than [__version__] and
    [__all__]. The body rebinds [__doc__] from [None] to the docstring,
    the interpreter stores [__builtins__] in the namespace, and, outside
    the module, it registers the module in [sys.modules]. *)
Lemma import_changes_more_than_two_names :
  ∃ st',
    import_package 3 "network_rag" network_rag_init initial_state = Done st'
    ∧ globals st' !! "__doc__" ≠ globals initial_state !! "__doc__"
    ∧ globals st' !! "__builtins__" ≠ globals initial_state !! "__builtins__"
    ∧ sys_modules (outside st') ≠ sys_modules (outside initial_state)
    ∧ ¬ changes_only ["__version__"; "__all__"] initial_state st'.
Proof.
  eexists. split; [reflexivity |].
  split; [vm_compute; discriminate |].
  split; [vm_compute; discriminate |].
  split; [vm_compute; discriminate |].
  intros [Hw _]. vm_compute in Hw. discriminate.
Qed.

(** C3, amended. A load, the interpreter running the module code in a
    namespace, changes in that namespace nothing but [__builtins__],
    [__doc__], [__version__] and [__all__]: the interpreter stores
    [__builtins__] when the name is absent and leaves it alone when it is
    there, and the body binds the docstring, the version and the export
    list; the world outside the module stays as it was. An import of the
    module when [sys.modules] already holds it changes nothing; a first
    import appends the module to [sys.modules] and does what a load does,
    with standard output, standard input, the environment and the set of
    importable modules as before. With fuel for the three statements both
    return. *)
Theorem import_load_frame (fuel : nat) (st st' : state) :
  (exec_code fuel network_rag_init st = Done st' →
     changes_only ["__builtins__"; "__doc__"; "__version__"; "__all__"] st st'
     ∧ is_Some (globals st' !! "__builtins__")
     ∧ (is_Some (globals st !! "__builtins__") →
        globals st' !! "__builtins__" = globals st !! "__builtins__")
     ∧ globals st' !! "__doc__" = Some (VStr docstring)
     ∧ globals st' !! "__version__" = Some (VStr "0.0.1")
     ∧ globals st' !! "__all__" = Some (VList [VStr "__version__"])
     ∧ outside st' = outside st)
  ∧ (import_package fuel "network_rag" network_rag_init st = Done st' →
     ("network_rag" ∈ sys_modules (outside st) ∧ st' = st)
     ∨ (("network_rag" ∉ sys_modules (outside st))
        ∧ (∀ x, x ∉ ["__builtins__"; "__doc__"; "__version__"; "__all__"] →
                globals st' !! x = globals st !! x)
        ∧ is_Some (globals st' !! "__builtins__")
        ∧ (is_Some (globals st !! "__builtins__") →
           globals st' !! "__builtins__" = globals st !! "__builtins__")
        ∧ globals st' !! "__doc__" = Some (VStr docstring)
        ∧ globals st' !! "__version__" = Some (VStr "0.0.1")
        ∧ globals st' !! "__all__" = Some (VList [VStr "__version__"])
        ∧ sys_modules (outside st')
          = (sys_modules (outside st) ++ ["network_rag"])%list
        ∧ stdout (outside st') = stdout (outside st)
        ∧ stdin (outside st') = stdin (outside st)
        ∧ environ (outside st') = environ (outside st)
        ∧ installed (outside st') = installed (outside st)))
  ∧ (∀ k, ∃ st1, exec_code (3 + k) network_rag_init st = Done st1)
  ∧ (∀ k, ∃ st1, import_package (3 + k) "network_rag" network_rag_init st
                 = Done st1).
Proof.
  split; [| split; [| split]].
  - intros Hdone.
    destruct (exec_code_frame fuel st st' Hdone)
      as (Hch & Hb & Hkept & Hdoc & Hver & Hall).
    repeat (split; [assumption |]). apply Hch.
  - unfold import_package.
    destruct (existsb (String.eqb "network_rag") (sys_modules (outside st)))
      eqn:Hreg; intros Hdone.
    + left. apply registered_iff in Hreg. split; [done | congruence].
    + right.
      destruct (exec_code_frame fuel _ st' Hdone)
        as ([Hw Hg] & Hb & Hkept & Hdoc & Hver & Hall).
      cbn [set_outside globals outside] in Hw, Hg, Hkept.
      split. { rewrite <- registered_iff, Hreg. discriminate. }
      repeat (split; [assumption |]).
      by rewrite Hw.
  - intros k. eexists. apply exec_network_rag_init.
  - intros k. unfold import_package, exec_code.
    destruct (existsb _ _); eexists; [reflexivity | apply exec_network_rag_init].
Qed.

Lemma import_load_frame_witness :
  (∃ st', import_package 3 "network_rag" network_rag_init initial_state = Done st'
          ∧ sys_modules (outside st') = ["network_rag"]
          ∧ stdout (outside st') = []
          ∧ globals st' !! "__name__" = Some (VStr "network_rag")
          ∧ globals st' !! "__version__" = Some (VStr "0.0.1"))
  ∧ changes_only ["__builtins__"; "__doc__"; "__version__"; "__all__"]
      busy_state (loaded (with_builtins busy_state)).
Proof.
  split.
  - exists (loaded (with_builtins
              (set_outside (register_module "network_rag" (outside initial_state))
                           initial_state))).
    split; [reflexivity |].
    destruct (import_load_frame 3 initial_state
                (loaded (with_builtins
                   (set_outside (register_module "network_rag" (outside initial_state))
                                initial_state))))
      as (_ & Himport & _).
    destruct (Himport eq_refl) as [[Hin _] | (_ & Hg & _ & _ & _ & Hver & _ & Hsys & Hout & _)].
    + vm_compute in Hin. by apply elem_of_nil in Hin.
    + split; [exact Hsys |]. split; [exact Hout |]. split; [| exact Hver].
      rewrite Hg; [reflexivity |].
      rewrite !not_elem_of_cons.
      repeat split; [done | done | done | done | apply not_elem_of_nil].
  - destruct (import_load_frame 5 busy_state (loaded (with_builtins busy_state)))
      as (Hload & _).
    apply (Hload eq_refl).
Defined.

(** C5: a load raises no exception, whatever the fuel and the state it
    starts from; with fuel for its three statements it completes; and the
    module declares no class, so no exception class of its own, and has
    no [raise]. *)
Theorem load_never_raises (fuel k : nat) (st : state) :
  raises (exec_module fuel network_rag_init st) = false
  ∧ exec_module (3 + k) network_rag_init st = Done (loaded st)
  ∧ declared_classes network_rag_init = []
  ∧ existsb (λ s, match s with SRaise _ => true | _ => false end)
            network_rag_init = false.
Proof.
  split; [| split; [apply exec_network_rag_init | by split]].
  rewrite exec_network_rag_init_fuel. by destruct (fuel <? 3)%nat.
Qed.

(** C10: the compiled module is three assignments, with no function to
    recurse into and no loop; run with one unit of fuel per statement, or
    more, the load returns a state. *)
Theorem load_terminates (k : nat) (st : state) :
  length (compile_module network_rag_init) = 3
  ∧ forallb is_assignment (compile_module network_rag_init) = true
  ∧ declared_functions network_rag_init = []
  ∧ existsb control_flow network_rag_init = false
  ∧ ∃ st', exec_module (length network_rag_init + k) network_rag_init st
           = Done st'.
Proof.
  repeat (split; [reflexivity |]).
  destruct (exec_constant_definitions (compile_module network_rag_init) eq_refl k st)
    as (st' & Hex & _).
  by exists st'.
Qed.

(** C9: two loads, from any two states of the world and of the fresh
    namespace and with any fuel, that return, return module states that
    agree on [__version__], on [__all__] and on [__doc__]; and every load
    with fuel for three statements does return. *)
Theorem load_deterministic (fuel1 fuel2 : nat) (st1 st2 r1 r2 : state) :
  exec_module fuel1 network_rag_init st1 = Done r1 →
  exec_module fuel2 network_rag_init st2 = Done r2 →
  globals r1 !! "__version__" = globals r2 !! "__version__"
  ∧ globals r1 !! "__all__" = globals r2 !! "__all__"
  ∧ globals r1 !! "__doc__" = globals r2 !! "__doc__"
  ∧ ∀ k, ∃ r, exec_module (3 + k) network_rag_init st1 = Done r.
Proof.
  intros H1 H2.
  apply exec_network_rag_init_done in H1 as ->.
  apply exec_network_rag_init_done in H2 as ->.
  rewrite !loaded_version, !loaded_all, !loaded_doc.
  repeat (split; [reflexivity |]).
  intros k. exists (loaded st1). apply exec_network_rag_init.
Qed.


Lemma load_deterministic_witness :
  globals (loaded initial_state) !! "__version__"
  = globals (loaded busy_state) !! "__version__"
  ∧ globals (loaded initial_state) !! "__all__"
    = globals (loaded busy_state) !! "__all__".
Proof.
  destruct (load_deterministic 3 5 initial_state busy_state
              (loaded initial_state) (loaded busy_state) eq_refl eq_refl)
    as (Hv & Ha & _).
  split; [exact Hv | exact Ha].
Defined.

(** ** Life of the module after its load *)

(** None of the names the module binds holds a callable, so the loaded
    module has no step to take, whatever a call would do. *)
Lemma loaded_no_step (invoke : value → state → state → Prop) (st st' : state) :
  ¬ module_step invoke network_rag_init (loaded st) st'.
Proof.
  intros [f v Hf Hlk Hcall _]. cbn in Hf.
  rewrite !elem_of_cons in Hf.
  destruct Hf as [-> | [-> | [-> | Hf]]].
  - rewrite loaded_doc in Hlk. by injection Hlk as <-.
  - rewrite loaded_version in Hlk. by injection Hlk as <-.
  - rewrite loaded_all in Hlk. by injection Hlk as <-.
  - by apply elem_of_nil in Hf.
Qed.

Lemma loaded_rtc (invoke : value → state → state → Prop) (st st' : state) :
  rtc (module_step invoke network_rag_init) (loaded st) st' → st' = loaded st.
Proof.
  intros Hrtc. apply rtc_inv in Hrtc as [Heq | (mid & Hstep & _)]; [done |].
  by apply loaded_no_step in Hstep.
Qed.

(** C4: the module body assigns [__version__] exactly once; after the
    load it is ["0.0.1"], and it still is in every state the module can
    reach by its own operations, whatever calling a callable does; the
    body deletes no name and defines no function that could. *)
Theorem version_immutable_after_load
    (invoke : value → state → state → Prop) (fuel : nat) (st st1 st' : state) :
  exec_module fuel network_rag_init st = Done st1 →
  rtc (module_step invoke network_rag_init) st1 st' →
  count_occ string_dec
    (flat_map bound_names (compile_module network_rag_init)) "__version__" = 1
  ∧ globals st1 !! "__version__" = Some (VStr "0.0.1")
  ∧ globals st' !! "__version__" = Some (VStr "0.0.1")
  ∧ st' = st1
  ∧ flat_map deleted_names (compile_module network_rag_init) = []
  ∧ declared_functions network_rag_init = [].
Proof.
  intros Hdone Hrtc.
  apply exec_network_rag_init_done in Hdone as ->.
  apply loaded_rtc in Hrtc as ->.
  split; [reflexivity |].
  split; [apply loaded_version |]. split; [apply loaded_version |].
  by repeat split.
Qed.


Lemma version_immutable_after_load_witness :
  exec_module 3 network_rag_init initial_state = Done (loaded initial_state)
  ∧ globals (loaded initial_state) !! "__version__" = Some (VStr "0.0.1").
Proof.
  split; [reflexivity |].
  destruct (version_immutable_after_load clobber 3 initial_state
              (loaded initial_state) (loaded initial_state)
              eq_refl (rtc_refl _ _))
    as (_ & _ & Hv & _).
  exact Hv.
Defined.

(** ** The module against a minimal one *)

(** C6, the claim as stated fails: loaded from the same fresh namespace,
    the shipped module and the one-line module are told apart by their
    export surface. The one-line module has no [__all__] and its only
    name begins with an underscore, so a star import receives nothing. *)
Lemma one_line_module_exports_nothing :
  observe (exec_module 3 network_rag_init initial_state)
  ≠ observe (exec_module 1 one_line_module initial_state).
Proof.
  intros Heq. apply (f_equal snd) in Heq.
  change (star_import (loaded initial_state)
          = star_import (bind_name "__version__" (VStr "0.0.1") initial_state))
    in Heq.
  rewrite loaded_star_import in Heq.
  vm_compute in Heq. discriminate.
Qed.

(** C6, amended: the shipped module and the one-line module yield the
    same version value; the shipped module yields the same version value
    and the same export surface as the two-declaration module, which
    declares the version constant and the export list. *)
Theorem minimal_module_equivalence (k : nat) (st : state) :
  attr "__version__" (exec_module (3 + k) network_rag_init st)
  = attr "__version__" (exec_module (1 + k) one_line_module st)
  ∧ observe (exec_module (3 + k) network_rag_init st)
    = observe (exec_module (2 + k) two_line_module st)
  ∧ observe (exec_module (3 + k) network_rag_init st)
    = (Some (VStr "0.0.1"), Done {[ "__version__" := VStr "0.0.1" ]}).
Proof.
  rewrite exec_network_rag_init.
  assert (H1 : exec_module (1 + k) one_line_module st
               = Done (bind_name "__version__" (VStr "0.0.1") st))
    by (cbn; apply exec_nil).
  assert (H2 : exec_module (2 + k) two_line_module st
               = Done (bind_name "__all__" (VList [VStr "__version__"])
                         (bind_name "__version__" (VStr "0.0.1") st)))
    by (cbn; apply exec_nil).
  rewrite H1, H2. unfold observe. cbn [attr mbind outcome_bind].
  rewrite loaded_version, loaded_star_import.
  split; [cbn; by simplify_map_eq |]. split; [| reflexivity].
  f_equal; [cbn; by simplify_map_eq |].
  unfold star_import. cbn [globals bind_name].
  rewrite lookup_insert_eq. cbn [export_names mbind outcome_bind import_names].
  by simplify_map_eq.
Qed.

(** ** Shape of the module *)

(** C7: the package has one module, the package root; its body is three
    constant definitions, the docstring, [__version__] and [__all__], in
    that order; it has no branch, loop or raise, declares no function or
    class, imports nothing, and reads no name; its load is those three
    bindings and nothing more. *)
Theorem module_is_constant_definitions (k : nat) (st : state) :
  map fst package = ["network_rag"]
  ∧ network_rag_init
    = [ SExpr (EStr docstring);
        SAssign "__version__" (EStr "0.0.1");
        SAssign "__all__" (EList [EStr "__version__"]) ]
  ∧ forallb constant_definition network_rag_init = true
  ∧ flat_map bound_names (compile_module network_rag_init)
    = ["__doc__"; "__version__"; "__all__"]
  ∧ existsb control_flow network_rag_init = false
  ∧ declared_functions network_rag_init = []
  ∧ declared_classes network_rag_init = []
  ∧ imported_modules network_rag_init = []
  ∧ flat_map read_names network_rag_init = []
  ∧ exec_module (3 + k) network_rag_init st
    = Done (bind_name "__all__" (VList [VStr "__version__"])
             (bind_name "__version__" (VStr "0.0.1")
               (bind_name "__doc__" (VStr docstring) st))).
Proof.
  repeat (split; [reflexivity |]). apply exec_network_rag_init.
Qed.

(** ** Running the module body again *)

Lemma loaded_idempotent (st : state) : loaded (loaded st) = loaded st.
Proof.
  unfold loaded, bind_name. cbn [globals outside]. f_equal.
  apply map_eq. intros x.
  destruct (decide (x = "__all__")) as [-> | Hall]; [by simplify_map_eq |].
  destruct (decide (x = "__version__")) as [-> | Hver]; [by simplify_map_eq |].
  destruct (decide (x = "__doc__")) as [-> | Hdoc]; by simplify_map_eq.
Qed.

(** X1: running the module body a second time in the namespace an
    earlier load left behind, as a reload does, gives back the state of
    the first load: namespace and outside world are those the first load
    produced, from whatever state that load started. *)
Theorem reload_idempotent (k1 k2 : nat) (st : state) :
  (st1 ← exec_module (3 + k1) network_rag_init st;
   exec_module (3 + k2) network_rag_init st1)
  = exec_module (3 + k1) network_rag_init st.
Proof.
  rewrite (exec_network_rag_init k1 st). cbn [mbind outcome_bind].
  rewrite (exec_network_rag_init k2 (loaded st)).
  by rewrite loaded_idempotent.
Qed.
